(** * node-hello: the PySpark hello-world script [main.py]

    The script is a module body of five statements:
<<
    from pyspark.sql import SparkSession
    spark = SparkSession.builder.getOrCreate()
    data = [(1, "Alice"), (2, "Bob")]
    df = spark.createDataFrame(data, ["id", "name"])
    df.show()
>>
    It is embedded as a term of a free monad over the calls it makes: the
    three calls into the framework are answered by an arbitrary [engine],
    the facilities of the Python runtime (import, list allocation, and the
    ones the script never touches: argv, environment, files, network,
    clock, random numbers, threads, locks) by the interpreter.  The lists
    the script builds live in a heap the engine can read and write, as
    Python passes them by reference. *)

From stdpp Require Import base option list strings gmap.
From Stdlib Require Import ZArith.

Set Implicit Arguments.
Set Default Proof Using "Type".
Set Warnings "-register-all".
Local Open Scope Z_scope.
Local Open Scope string_scope.
Local Open Scope list_scope.

(** ** Python values *)

(** The values the script builds: ints, strs and tuples.  Tuples are
    immutable, so they are values; lists are mutable objects and live in
    the heap, named by their location. *)
Inductive pyval : Type :=
| PyInt (z : Z)
| PyStr (s : string)
| PyTuple (fields : list pyval).

Definition pylist := list pyval.
Definition loc := nat.

Definition as_str (v : pyval) : option string :=
  match v with PyStr s => Some s | _ => None end.

Definition as_row (v : pyval) : option (list pyval) :=
  match v with PyTuple fs => Some fs | _ => None end.

(** Python exceptions: the class name and the message. *)
Record exn : Type := Exn { exn_type : string; exn_msg : string }.

Inductive result (A : Type) : Type :=
| Ok (a : A)
| Raise (e : exn).
Arguments Ok {A} a.
Arguments Raise {A} e.

Definition is_ok {A} (r : result A) : bool :=
  match r with Ok _ => true | Raise _ => false end.

Definition raised {A} (r : result A) : option exn :=
  match r with Ok _ => None | Raise e => Some e end.

(** What [DataFrame.show] puts on the console: a header and the cells. *)
Record table : Type := Table { header : list string; body : list (list pyval) }.

(** The binding of a list of rows to a list of column names: every row
    is a tuple, every name a str, and every row has one field per name. *)
Definition bind_schema (items names : pylist) : option table :=
  rows ← mapM as_row items;
  cols ← mapM as_str names;
  if decide (Forall (λ r, length r = length cols) rows)
  then Some (Table cols rows) else None.

(** ** Process state *)

(** The part of the process the framework code can reach: the Python heap
    (it receives references into it), the console, and its own state. *)
Record pstate (E : Type) : Type := PState {
  heap : list pylist;
  console : list table;
  est : E
}.

(** The facilities of the host a Python module body can reach by itself:
    the importable modules with the names they export, command line,
    environment, files, the messages waiting on and sent over the network,
    clock, random generator, and the number of threads and locks the
    process created. *)
Record host : Type := Host {
  installed : gmap string (gset string);
  argv : list string;
  environ : gmap string string;
  files : gmap string string;
  inbox : gmap string string;
  outbox : list (string * string);
  clock : Z;
  seed : Z;
  threads : nat;
  locks : nat
}.

Record world (E : Type) : Type := World { proc : pstate E; os : host }.

(** [from m import n] finds the module and the name in it. *)
Definition importable (h : host) (m n : string) : Prop :=
  ∃ names, installed h !! m = Some names ∧ n ∈ names.

(** The operations a run can log, and the facility each one works on. *)
Inductive op : Type :=
| OpImport | OpNewList
| OpGetOrCreate | OpCreateDataFrame | OpShow
| OpArgv | OpGetEnv | OpReadFile | OpWriteFile | OpRecv | OpSend
| OpNow | OpRandom | OpStartThread | OpNewLock.

#[global] Instance op_eq_dec : EqDecision op.
Proof. solve_decision. Defined.

Inductive facility : Type :=
| Modules | Memory | Engine | Console
| CommandLine | Environment | FileSystem | Network
| Clock | Entropy | Concurrency.

#[global] Instance facility_eq_dec : EqDecision facility.
Proof. solve_decision. Defined.

Definition facility_of (o : op) : facility :=
  match o with
  | OpImport => Modules
  | OpNewList => Memory
  | OpGetOrCreate | OpCreateDataFrame => Engine
  | OpShow => Console
  | OpArgv => CommandLine
  | OpGetEnv => Environment
  | OpReadFile | OpWriteFile => FileSystem
  | OpRecv | OpSend => Network
  | OpNow => Clock
  | OpRandom => Entropy
  | OpStartThread | OpNewLock => Concurrency
  end.

(** The facilities through which a process exchanges data with the outside. *)
Definition external (f : facility) : bool :=
  match f with
  | Console | CommandLine | Environment | FileSystem | Network => true
  | _ => false
  end.

Definition is_framework_op (o : op) : bool :=
  match o with
  | OpGetOrCreate | OpCreateDataFrame | OpShow => true
  | _ => false
  end.

(** [DataFrame.show()] with its defaults prints the first 20 rows and cuts
    a string of more than 20 characters to 17 and an ellipsis. *)
Definition clip (v : pyval) : pyval :=
  match v with
  | PyStr s =>
      if decide (20 < String.length s)%nat
      then PyStr (String.substring 0 17 s +:+ "...") else v
  | _ => v
  end.

Definition show_view (cols : list string) (rows : list (list pyval)) : table :=
  Table cols (map (map clip) (take 20 rows)).

Section Script.

(** The framework's objects are opaque to the script.  [columns] and
    [collect] are the framework's own observers of a dataframe
    ([DataFrame.columns], [DataFrame.collect]). *)
Variables session dataframe E : Type.
Variable columns : dataframe -> list string.
Variable collect : dataframe -> list (list pyval).

(** ** Calls *)

(** Options set on a session builder ([Builder.config], [master],
    [appName]); [SparkSession.builder] comes with none. *)
Definition conf := list (string * string).

(** The framework calls of the script. *)
Inductive fcall : Type -> Type :=
| GetOrCreate (options : conf) : fcall session
| CreateDataFrame (spark : session) (data schema : loc) : fcall dataframe
| Show (df : dataframe) : fcall unit.

(** The calls the Python runtime answers itself: the two the script
    makes, import and list construction, and the ones a module body could
    make and this one does not. *)
Inductive hcall : Type -> Type :=
| ImportFrom (module name : string) : hcall unit
| NewList (items : pylist) : hcall loc
| Argv : hcall (list string)
| GetEnv (key : string) : hcall (option string)
| ReadFile (path : string) : hcall string
| WriteFile (path content : string) : hcall unit
| Recv (peer : string) : hcall (option string)
| Send (peer payload : string) : hcall unit
| Now : hcall Z
| Random : hcall Z
| StartThread : hcall nat
| NewLock : hcall nat.

Inductive call (R : Type) : Type :=
| Framework (c : fcall R)
| Runtime (c : hcall R).

(** ** Programs *)

Inductive prog (A : Type) : Type :=
| Ret (a : A)
| Do {R : Type} (c : call R) (k : R -> prog A).
Arguments Ret {A} a.

Fixpoint bind {A B} (p : prog A) (f : A -> prog B) : prog B :=
  match p with
  | Ret a => f a
  | Do c k => Do c (fun r => bind (k r) f)
  end.

Definition perform {R} (c : call R) : prog R := Do c Ret.

Notation "x <- p ;; q" := (bind p (fun x => q))
  (at level 100, p at next level, right associativity).
Notation "p ;;; q" := (bind p (fun _ => q))
  (at level 100, right associativity).

(** ** The script *)

Definition import_from (module name : string) : prog unit :=
  perform (Runtime (ImportFrom module name)).
Definition new_list (items : pylist) : prog loc :=
  perform (Runtime (NewList items)).
Definition getOrCreate (b : conf) : prog session :=
  perform (Framework (GetOrCreate b)).
Definition createDataFrame (spark : session) (data schema : loc) : prog dataframe :=
  perform (Framework (CreateDataFrame spark data schema)).
Definition show (df : dataframe) : prog unit :=
  perform (Framework (Show df)).

(** [SparkSession.builder]: the class-level builder, no option set. *)
Definition builder : conf := [].

(** The list literal of line 5 and the list literal of line 6. *)
Definition data_literal : pylist :=
  [PyTuple [PyInt 1; PyStr "Alice"]; PyTuple [PyInt 2; PyStr "Bob"]].
Definition column_names : pylist := [PyStr "id"; PyStr "name"].

(** The operations of the five statements, in the order they run. *)
Definition script_ops : list op :=
  [OpImport; OpGetOrCreate; OpNewList; OpNewList; OpCreateDataFrame; OpShow].

(** The names the module body binds. *)
Record globals : Type := Globals {
  g_spark : session;
  g_data : loc;
  g_df : dataframe
}.

Definition main : prog globals :=
  import_from "pyspark.sql" "SparkSession" ;;;
  spark <- getOrCreate builder ;;
  data <- new_list data_literal ;;
  schema <- new_list column_names ;;
  df <- createDataFrame spark data schema ;;
  show df ;;;
  Ret {| g_spark := spark; g_data := data; g_df := df |}.

(** ** Semantics *)

(** The framework: any function from a call and the process state to an
    answer (a value or a raised exception) and a new process state. *)
Variable engine : forall R, fcall R -> pstate E -> result R * pstate E.

Definition module_not_found (m : string) : exn :=
  Exn "ModuleNotFoundError" ("No module named '" +:+ m +:+ "'").
Definition cannot_import (m n : string) : exn :=
  Exn "ImportError" ("cannot import name '" +:+ n +:+ "' from '" +:+ m +:+ "'").
Definition file_not_found (path : string) : exn :=
  Exn "FileNotFoundError" ("No such file or directory: '" +:+ path +:+ "'").

Definition next_seed (s : Z) : Z := (s * 1103515245 + 12345) mod 2 ^ 31.

Definition with_heap (h : list pylist) (w : world E) : world E :=
  World (PState h (console (proc w)) (est (proc w))) (os w).

Definition runtime_step {R} (c : hcall R) (w : world E) : result R * world E :=
  let h := os w in
  match c in hcall R return result R * world E with
  | ImportFrom m n =>
      match installed h !! m with
      | None => (Raise (module_not_found m), w)
      | Some names =>
          if decide (n ∈ names) then (Ok tt, w)
          else (Raise (cannot_import m n), w)
      end
  | NewList items =>
      (Ok (length (heap (proc w))), with_heap (heap (proc w) ++ [items]) w)
  | Argv => (Ok (argv h), w)
  | GetEnv key => (Ok (environ h !! key), w)
  | ReadFile path =>
      match files h !! path with
      | Some content => (Ok content, w)
      | None => (Raise (file_not_found path), w)
      end
  | WriteFile path content =>
      (Ok tt, World (proc w)
                (Host (installed h) (argv h) (environ h)
                   (<[path:=content]> (files h)) (inbox h) (outbox h)
                   (clock h) (seed h) (threads h) (locks h)))
  | Recv peer => (Ok (inbox h !! peer), w)
  | Send peer payload =>
      (Ok tt, World (proc w)
                (Host (installed h) (argv h) (environ h) (files h)
                   (inbox h) (outbox h ++ [(peer, payload)])
                   (clock h) (seed h) (threads h) (locks h)))
  | Now => (Ok (clock h), w)
  | Random =>
      (Ok (seed h), World (proc w)
                      (Host (installed h) (argv h) (environ h) (files h)
                         (inbox h) (outbox h)
                         (clock h) (next_seed (seed h)) (threads h) (locks h)))
  | StartThread =>
      (Ok (threads h), World (proc w)
                         (Host (installed h) (argv h) (environ h) (files h)
                            (inbox h) (outbox h)
                            (clock h) (seed h) (S (threads h)) (locks h)))
  | NewLock =>
      (Ok (locks h), World (proc w)
                       (Host (installed h) (argv h) (environ h) (files h)
                          (inbox h) (outbox h)
                          (clock h) (seed h) (threads h) (S (locks h))))
  end.

Definition step {R} (c : call R) (w : world E) : result R * world E :=
  match c with
  | Framework f => let (r, p) := engine f (proc w) in (r, World p (os w))
  | Runtime h => runtime_step h w
  end.

(** One entry of the run's log: the call, the world it was made in and
    the answer it got. *)
Inductive event : Type :=
| Event {R : Type} (c : call R) (before : world E) (r : result R).

Record outcome (A : Type) : Type := Outcome {
  res : result A;
  final : world E;
  trace : list event
}.

(** A module body runs its calls in order; a raised exception ends it. *)
Fixpoint run {A} (p : prog A) (w : world E) : outcome A :=
  match p with
  | Ret a => Outcome (Ok a) w []
  | Do c k =>
      match step c w with
      | (Raise e, w') => Outcome (Raise e) w' [Event c w (Raise e)]
      | (Ok x, w') =>
          let o := run (k x) w' in
          Outcome (res o) (final o) (Event c w (Ok x) :: trace o)
      end
  end.

(** ** Reading the log *)

Definition fop {R} (c : fcall R) : op :=
  match c with
  | GetOrCreate _ => OpGetOrCreate
  | CreateDataFrame _ _ _ => OpCreateDataFrame
  | Show _ => OpShow
  end.

Definition hop {R} (c : hcall R) : op :=
  match c with
  | ImportFrom _ _ => OpImport
  | NewList _ => OpNewList
  | Argv => OpArgv
  | GetEnv _ => OpGetEnv
  | ReadFile _ => OpReadFile
  | WriteFile _ _ => OpWriteFile
  | Recv _ => OpRecv
  | Send _ _ => OpSend
  | Now => OpNow
  | Random => OpRandom
  | StartThread => OpStartThread
  | NewLock => OpNewLock
  end.

Definition op_of {R} (c : call R) : op :=
  match c with Framework f => fop f | Runtime h => hop h end.

Definition ev_op (e : event) : op :=
  match e with Event c _ _ => op_of c end.

Definition ev_raised (e : event) : option exn :=
  match e with Event _ _ r => raised r end.

Definition ev_before (e : event) : world E :=
  match e with Event _ w _ => w end.

Definition ev_after (e : event) : world E :=
  match e with Event c w _ => (step c w).2 end.

(** The log tells the truth: the answer is the one the call got. *)
Definition ev_sound (e : event) : Prop :=
  match e with Event c w r => (step c w).1 = r end.

(** Each call of the log starts in the world the previous one left. *)
Fixpoint chained (w : world E) (t : list event) : Prop :=
  match t with
  | [] => True
  | e :: t' => ev_before e = w ∧ chained (ev_after e) t'
  end.

(** The lists a call allocates, the lists it hands to the framework and
    the options it configures the session with. *)
Definition ev_allocated (e : event) : option pylist :=
  match e with
  | Event (Runtime (NewList items)) _ _ => Some items
  | _ => None
  end.

Definition ev_loaded (e : event) : option (option pylist * option pylist) :=
  match e with
  | Event (Framework (CreateDataFrame _ d n)) w _ =>
      Some (heap (proc w) !! d, heap (proc w) !! n)
  | _ => None
  end.

Definition ev_options (e : event) : option conf :=
  match e with
  | Event (Framework (GetOrCreate o)) _ _ => Some o
  | _ => None
  end.

(** The session a call got and the session a call was made on; the
    dataframe a call got and the dataframe a call displayed. *)
Definition ev_session_made (e : event) : option session :=
  match e with
  | Event c _ r =>
      match c with
      | Framework f =>
          match f in fcall R return result R → option session with
          | GetOrCreate _ => λ r, match r with Ok s => Some s | Raise _ => None end
          | _ => λ _, None
          end
      | Runtime _ => λ _, None
      end r
  end.

Definition ev_session_used (e : event) : option session :=
  match e with
  | Event (Framework (CreateDataFrame s _ _)) _ _ => Some s
  | _ => None
  end.

Definition ev_df_made (e : event) : option dataframe :=
  match e with
  | Event c _ r =>
      match c with
      | Framework f =>
          match f in fcall R return result R → option dataframe with
          | CreateDataFrame _ _ _ =>
              λ r, match r with Ok df => Some df | Raise _ => None end
          | _ => λ _, None
          end
      | Runtime _ => λ _, None
      end r
  end.

Definition ev_df_shown (e : event) : option dataframe :=
  match e with
  | Event (Framework (Show df)) _ _ => Some df
  | _ => None
  end.

(** What the log shows of a call, the host apart. *)
Definition ev_view (e : event)
  : op * pstate E * option exn * option pylist
    * option (option pylist * option pylist) * option conf :=
  (ev_op e, proc (ev_before e), ev_raised e,
   ev_allocated e, ev_loaded e, ev_options e).

Definition ops (t : list event) : list op := map ev_op t.

Definition framework_ops (t : list event) : list op :=
  filter (λ o, is_framework_op o = true) (ops t).

(** A program is a straight line of the operations [line] when its
    calls are these, in this order, whatever the answers. *)
Fixpoint straight_line {A} (line : list op) (p : prog A) : Prop :=
  match p, line with
  | Ret _, [] => True
  | Do c k, o :: line' => op_of c = o ∧ ∀ r, straight_line line' (k r)
  | _, _ => False
  end.

(** Every call a program can make, on any path, is an operation in [P]. *)
Fixpoint only {A} (P : op → bool) (p : prog A) : Prop :=
  match p with
  | Ret _ => True
  | Do c k => P (op_of c) = true ∧ ∀ r, only P (k r)
  end.

(** The operations that neither read nor change the [host], the set of
    importable modules apart. *)
Definition hostless (o : op) : bool :=
  match facility_of o with
  | Modules | Memory | Engine | Console => true
  | _ => false
  end.

(** ** What the script relies on from the framework *)

(** [createDataFrame(data, names)], when every row is a tuple with as many
    fields as there are names, yields on success a dataframe with these
    columns and these rows. *)
Definition create_faithful : Prop :=
  ∀ spark d n st df st' items names t,
    engine (CreateDataFrame spark d n) st = (Ok df, st') →
    heap st !! d = Some items →
    heap st !! n = Some names →
    bind_schema items names = Some t →
    columns df = header t ∧ collect df = body t.

(** [show()] prints the dataframe's view, once. *)
Definition show_faithful : Prop :=
  ∀ df st u st',
    engine (Show df) st = (Ok u, st') →
    console st' = console st ++ [show_view (columns df) (collect df)].

(** The other calls print no table. *)
Definition quiet : Prop :=
  ∀ R (c : fcall R) st,
    fop c ≠ OpShow → console (engine c st).2 = console st.


End Script.

Arguments GetOrCreate {session dataframe} options.
Arguments CreateDataFrame {session dataframe} spark data schema.
Arguments Show {session dataframe} df.
Arguments Framework {session dataframe R} c.
Arguments Runtime {session dataframe R} c.
Arguments Ret {session dataframe A} a.
Arguments Do {session dataframe A R} c k.
Arguments Event {session dataframe E R} c before r.
Arguments Outcome {session dataframe E A} res final trace.
Arguments main {session dataframe}.
Arguments ev_op {session dataframe E} e.
Arguments ev_raised {session dataframe E} e.
Arguments ev_before {session dataframe E} e.
Arguments ev_allocated {session dataframe E} e.
Arguments ev_loaded {session dataframe E} e.
Arguments ev_options {session dataframe E} e.
Arguments ev_view {session dataframe E} e.
Arguments ev_session_made {session dataframe E} e.
Arguments ev_session_used {session dataframe E} e.
Arguments ev_df_made {session dataframe E} e.
Arguments ev_df_shown {session dataframe E} e.

(** ** A local engine

    One implementation of the framework's contract, to run the script
    on: a dataframe is its table, the engine's state counts the sessions
    it started, and [down] makes every session start fail. *)
Module LocalEngine.

Definition session := nat.
Definition dataframe := table.
Definition state := nat.

Definition columns (df : dataframe) : list string := header df.
Definition collect (df : dataframe) : list (list pyval) := body df.

Definition gateway_exited : exn :=
  Exn "PySparkRuntimeError"
      "[JAVA_GATEWAY_EXITED] Java gateway process exited before sending its port number.".
Definition cannot_infer : exn :=
  Exn "PySparkTypeError" "[CANNOT_INFER_SCHEMA_FOR_TYPE] Can not infer schema.".

Definition build (items names : pylist) : result dataframe :=
  match bind_schema items names with
  | Some t => Ok t
  | None => Raise cannot_infer
  end.

Definition engine (down : bool) (R : Type) (c : fcall session dataframe R)
    (st : pstate state) : result R * pstate state :=
  match c in fcall _ _ R return result R * pstate state with
  | GetOrCreate _ =>
      if down then (Raise gateway_exited, st)
      else (Ok (est st), PState (heap st) (console st) (S (est st)))
  | CreateDataFrame _ d n =>
      match heap st !! d, heap st !! n with
      | Some items, Some names => (build items names, st)
      | _, _ => (Raise cannot_infer, st)
      end
  | Show df =>
      (Ok tt, PState (heap st)
                (console st ++ [show_view (columns df) (collect df)]) (est st))
  end.

(** An engine that is not the framework's: its [createDataFrame] turns
    the list it is given around in place, as [data.reverse()] would. *)
Definition reversing (R : Type) (c : fcall session dataframe R)
    (st : pstate state) : result R * pstate state :=
  match c in fcall _ _ R return result R * pstate state with
  | GetOrCreate o => engine false (GetOrCreate o) st
  | CreateDataFrame _ d n =>
      match heap st !! d, heap st !! n with
      | Some items, Some names =>
          (build items names,
           PState (<[d:=reverse items]> (heap st)) (console st) (est st))
      | _, _ => (Raise cannot_infer, st)
      end
  | Show df => engine false (Show df) st
  end.

Definition site_packages : gmap string (gset string) :=
  {[ "pyspark.sql" := {[ "SparkSession"; "DataFrame"; "Row" ]} ]}.

Definition fresh_host : host :=
  Host site_packages ["main.py"] ∅ ∅ ∅ [] 0 0 1 0.

(** A machine without the framework installed. *)
Definition bare_host : host :=
  Host ∅ ["main.py"] ∅ ∅ ∅ [] 0 0 1 0.


(** The same machine, started as
    [SPARK_LOCAL_IP=127.0.0.1 python main.py --rows 5] next to a file
    [data.csv], with a message waiting on the network, later, by a
    process that already has two threads. *)
Definition busy_host : host :=
  Host site_packages ["main.py"; "--rows"; "5"]
       {[ "SPARK_LOCAL_IP" := "127.0.0.1" ]}
       {[ "data.csv" := "3,Carol" ]}
       {[ "10.0.0.7:7077" := "4,Dave" ]} []
       1762214400 42 2 1.

Definition start (h : host) : world state := World (PState [] [] 0%nat) h.

(** A process that already holds a list and a printed table, with an
    engine that has started three sessions. *)
Definition later (h : host) : world state :=
  World (PState [[PyInt 7]] [Table ["n"] [[PyInt 7]]] 3%nat) h.

End LocalEngine.

(** ** The interpreter *)

Unset Implicit Arguments.

Section Interpreter.

Context {session dataframe E : Type}.
Variable engine : ∀ R, fcall session dataframe R → pstate E → result R * pstate E.

Abbreviation prog := (prog session dataframe).
Abbreviation exec := (run engine).

Lemma run_ret {A} (a : A) w : exec (Ret a) w = Outcome (Ok a) w [].
Proof. reflexivity. Qed.

Lemma run_do_raise {A R} (c : call session dataframe R) (k : R → prog A) w e w' :
  step engine c w = (Raise e, w') →
  exec (Do c k) w = Outcome (Raise e) w' [Event c w (Raise e)].
Proof. intros Hs. simpl. by rewrite Hs. Qed.

Lemma run_do_ok {A R} (c : call session dataframe R) (k : R → prog A) w x w' :
  step engine c w = (Ok x, w') →
  exec (Do c k) w =
    Outcome (res (exec (k x) w')) (final (exec (k x) w'))
            (Event c w (Ok x) :: trace (exec (k x) w')).
Proof. intros Hs. simpl. by rewrite Hs. Qed.

(** Case analysis on the first call of a run. *)
Ltac first_call c w x e w' Hs :=
  destruct (step engine c w) as [[x|e] w'] eqn:Hs;
  [ rewrite (run_do_ok _ _ _ _ _ Hs) | rewrite (run_do_raise _ _ _ _ _ Hs) ];
  cbn [res final trace].

(** The log of a run is truthful and sequential. *)
Lemma run_sound {A} (p : prog A) w : Forall (ev_sound engine) (trace (exec p w)).
Proof.
  revert w. induction p as [a|R c k IH]; intros w; [constructor|].
  first_call c w x e w' Hs.
  - constructor; [cbn [ev_sound]; by rewrite Hs | apply IH].
  - constructor; [cbn [ev_sound]; by rewrite Hs | constructor].
Qed.

Lemma run_chained {A} (p : prog A) w : chained engine w (trace (exec p w)).
Proof.
  revert w. induction p as [a|R c k IH]; intros w; [done|].
  first_call c w x e w' Hs; cbn [chained ev_before ev_after]; rewrite ?Hs.
  - split; [done | apply IH].
  - done.
Qed.

(** The world a run ends in is the one its last call left. *)
Lemma run_final {A} (p : prog A) w :
  final (exec p w) = from_option (ev_after engine) w (last (trace (exec p w))).
Proof.
  revert w. induction p as [a|R c k IH]; intros w; [done|].
  first_call c w x e w' Hs.
  - rewrite IH, last_cons.
    destruct (last (trace (exec (k x) w'))); cbn [from_option ev_after]; [done|].
    by rewrite Hs.
  - cbn [last from_option ev_after]. by rewrite Hs.
Qed.

(** A raised exception is the result of the run, and the raising call is
    the last one the run makes. *)
Lemma run_raise_last {A} (p : prog A) w i ev e :
  trace (exec p w) !! i = Some ev →
  ev_raised ev = Some e →
  res (exec p w) = Raise e ∧ S i = length (trace (exec p w)).
Proof.
  revert w i. induction p as [a|R c k IH]; intros w i; [done|].
  first_call c w x e' w' Hs.
  - destruct i as [|i]; cbn [lookup list_lookup length].
    + by intros [= <-].
    + intros Hi He. destruct (IH x w' i Hi He) as [-> ->]. done.
  - destruct i as [|i]; cbn [lookup list_lookup length]; [|done].
    intros [= <-]. cbn [ev_raised raised]. by intros [= ->].
Qed.

(** Conversely a run fails only with the exception its last call raised. *)
Lemma run_raise_inv {A} (p : prog A) w e :
  res (exec p w) = Raise e →
  ∃ ev, last (trace (exec p w)) = Some ev ∧ ev_raised ev = Some e.
Proof.
  revert w. induction p as [a|R c k IH]; intros w; [done|].
  first_call c w x e' w' Hs.
  - intros Hr. destruct (IH x w' Hr) as (ev & Hl & He).
    exists ev. split; [|done]. rewrite last_cons. by rewrite Hl.
  - intros [= ->]. by eexists.
Qed.

(** Every logged call is one the program can make. *)
Lemma run_only {A} P (p : prog A) w :
  only P p → Forall (λ ev, P (ev_op ev) = true) (trace (exec p w)).
Proof.
  revert w. induction p as [a|R c k IH]; intros w; [constructor|].
  intros [Hc Hk]. first_call c w x e w' Hs.
  - constructor; [done | by apply IH].
  - constructor; [done | constructor].
Qed.

Lemma only_weaken {A} (P Q : op → bool) (p : prog A) :
  (∀ o, P o = true → Q o = true) → only P p → only Q p.
Proof.
  intros HPQ. induction p as [a|R c k IH]; [done|].
  intros [Hc Hk]. split; [by apply HPQ | intros r; by apply IH].
Qed.

Lemma straight_line_only {A} os (p : prog A) :
  straight_line os p → only (λ o, bool_decide (o ∈ os)) p.
Proof.
  revert os. induction p as [a|R c k IH]; intros os; [done|].
  destruct os as [|o os]; [done|]. intros [<- Hk]. split.
  - apply bool_decide_eq_true. by left.
  - intros r. apply (only_weaken (λ o, bool_decide (o ∈ os))); [|by apply IH].
    intros o Ho. apply bool_decide_eq_true. apply bool_decide_eq_true in Ho.
    by right.
Qed.

(** A straight line runs a prefix of its operations, and all of them
    when it returns. *)
Lemma run_straight_line {A} os (p : prog A) w :
  straight_line os p →
  ops (trace (exec p w)) `prefix_of` os ∧
  (is_ok (res (exec p w)) = true → ops (trace (exec p w)) = os).
Proof.
  revert os w. induction p as [a|R c k IH]; intros os w.
  - destruct os; [|done]. intros _. split; [by exists []|done].
  - destruct os as [|o os]; [done|]. intros [<- Hk].
    first_call c w x e w' Hs; cbn [ops map ev_op].
    + destruct (IH x os w' (Hk x)) as [Hp Hf]. split.
      * by apply prefix_cons.
      * intros Hok. unfold ops in Hf. by rewrite (Hf Hok).
    + split; [|done]. apply prefix_cons, prefix_nil.
Qed.

(** *** Calls that leave the host alone *)

Lemma step_framework {R} (f : fcall session dataframe R) w r st :
  engine _ f (proc w) = (r, st) →
  step engine (Framework f) w = (r, World st (os w)).
Proof. intros He. cbn [step]. by rewrite He. Qed.

Lemma step_new_list items w :
  step engine (Runtime (NewList items)) w =
    (Ok (length (heap (proc w))), with_heap (heap (proc w) ++ [items]) w).
Proof. reflexivity. Qed.

Lemma step_import m n w r w' :
  step engine (Runtime (ImportFrom m n)) w = (r, w') → w' = w.
Proof. cbn [step runtime_step]. repeat case_match; by intros [= _ <-]. Qed.

Lemma step_hostless_os {R} (c : call session dataframe R) w :
  hostless (op_of c) = true → os (step engine c w).2 = os w.
Proof.
  destruct c as [f|h].
  - intros _. destruct (engine _ f (proc w)) as [r st] eqn:He.
    by rewrite (step_framework _ _ _ _ He).
  - destruct h; try discriminate; intros _.
    + destruct (step engine (Runtime (ImportFrom module name)) w) as [r w'] eqn:Hs.
      apply step_import in Hs. by subst.
    + done.
Qed.

Lemma run_hostless_os {A} (p : prog A) w :
  only hostless p → os (final (exec p w)) = os w.
Proof.
  revert w. induction p as [a|R c k IH]; intros w; [done|].
  intros [Hc Hk]. pose proof (step_hostless_os c w Hc) as Hos.
  first_call c w x e w' Hs; cbn [snd] in Hos.
  - by rewrite IH.
  - done.
Qed.

(** A hostless call answers the same, and leaves the same process state,
    on two hosts that offer the same modules. *)
Lemma step_hostless_indep {R} (c : call session dataframe R) (st : pstate E) h1 h2 :
  hostless (op_of c) = true →
  installed h1 = installed h2 →
  (step engine c (World st h1)).1 = (step engine c (World st h2)).1 ∧
  proc (step engine c (World st h1)).2 = proc (step engine c (World st h2)).2.
Proof.
  intros Hc Hi. destruct c as [f|h].
  - destruct (engine _ f st) as [r st'] eqn:He.
    by rewrite (step_framework f (World st h1) _ _ He), (step_framework f (World st h2) _ _ He).
  - destruct h; try discriminate.
    + cbn [step runtime_step os]. rewrite Hi. by repeat case_match.
    + done.
Qed.

Lemma ev_view_host {R} (c : call session dataframe R) (st : pstate E) h1 h2 r :
  ev_view (Event c (World st h1) r) = ev_view (Event c (World st h2) r).
Proof. revert r. by destruct c as [[]|[]]. Qed.

Lemma run_host_independent {A} (p : prog A) (st : pstate E) h1 h2 :
  only hostless p →
  installed h1 = installed h2 →
  res (exec p (World st h1)) = res (exec p (World st h2)) ∧
  proc (final (exec p (World st h1))) = proc (final (exec p (World st h2))) ∧
  map ev_view (trace (exec p (World st h1))) =
    map ev_view (trace (exec p (World st h2))).
Proof.
  intros Hp Hi. revert st Hp. induction p as [a|R c k IH]; intros st; [done|].
  intros [Hc Hk].
  destruct (step_hostless_indep c st h1 h2 Hc Hi) as [Hr Hst].
  pose proof (step_hostless_os c (World st h1) Hc) as Ho1.
  pose proof (step_hostless_os c (World st h2) Hc) as Ho2.
  destruct (step engine c (World st h1)) as [r1 [st1 o1]] eqn:Hs1.
  destruct (step engine c (World st h2)) as [r2 [st2 o2]] eqn:Hs2.
  cbn [fst snd proc os] in *. subst r2 st2 o1 o2.
  destruct r1 as [x|e].
  - rewrite (run_do_ok _ _ _ _ _ Hs1), (run_do_ok _ _ _ _ _ Hs2). cbn [res final trace map].
    destruct (IH x st1 (Hk x)) as (-> & -> & ->).
    by rewrite (ev_view_host c st h1 h2 _).
  - rewrite (run_do_raise _ _ _ _ _ Hs1), (run_do_raise _ _ _ _ _ Hs2).
    cbn [res final trace map proc]. by rewrite (ev_view_host c st h1 h2 _).
Qed.

(** Two consecutive allocations, read back. *)
Lemma heap_two_allocs (h : list pylist) a b :
  ((h ++ [a]) ++ [b]) !! length h = Some a ∧
  ((h ++ [a]) ++ [b]) !! length (h ++ [a]) = Some b.
Proof.
  split.
  - rewrite <- app_assoc. by apply list_lookup_middle.
  - by apply list_lookup_middle.
Qed.

End Interpreter.


(** ** The script *)

Section Main.

Context {session dataframe E : Type}.
Variable columns : dataframe → list string.
Variable collect : dataframe → list (list pyval).
Variable engine : ∀ R, fcall session dataframe R → pstate E → result R * pstate E.

Abbreviation exec := (run engine).
Abbreviation script := (@main session dataframe).

(** Runs the next call of the script, one case per answer. *)
Ltac exec_call :=
  cbn [bind];
  lazymatch goal with
  | |- context [run ?eng (Do (Runtime (NewList ?items)) ?k) ?w] =>
      rewrite (run_do_ok eng _ k w _ _ (step_new_list eng items w))
  | |- context [run ?eng (Do (Framework ?f) ?k) ?w] =>
      let He := fresh "He" in
      destruct (eng _ f (proc w)) as [[?|?] ?] eqn:He;
      [ rewrite (run_do_ok eng _ k w _ _ (step_framework eng f w _ _ He))
      | rewrite (run_do_raise eng _ k w _ _ (step_framework eng f w _ _ He)) ]
  | |- context [run ?eng (Do ?c ?k) ?w] =>
      let Hs := fresh "Hs" in
      destruct (step eng c w) as [[?|?] ?] eqn:Hs;
      [ rewrite (run_do_ok eng c k w _ _ Hs)
      | rewrite (run_do_raise eng c k w _ _ Hs) ];
      apply step_import in Hs; subst
  end;
  cbn [res final trace proc os heap console est with_heap] in *.

Ltac exec_main :=
  unfold main, import_from, getOrCreate, new_list, createDataFrame, show,
    perform;
  repeat exec_call; rewrite ?run_ret; cbn [res final trace] in *.

Lemma main_straight_line : straight_line script_ops script.
Proof. cbn. repeat (split; [reflexivity|]; intros ?). exact I. Qed.

Lemma main_hostless : only hostless script.
Proof.
  apply (only_weaken (λ o, bool_decide (o ∈ script_ops)) hostless).
  - intros o Ho. apply bool_decide_eq_true in Ho.
    unfold script_ops in Ho. set_unfold. by destruct_or!; subst.
  - apply straight_line_only, main_straight_line.
Qed.

(** A run that returns went through the three calls, each on the state
    the previous one left, the two lists allocated in between. *)
Lemma main_returns w g :
  res (exec script w) = Ok g →
  ∃ st1 st2 st3 u,
    let h := heap st1 in
    engine _ (GetOrCreate builder) (proc w) = (Ok (g_spark g), st1) ∧
    g_data g = length h ∧
    engine _ (CreateDataFrame (g_spark g) (length h) (length (h ++ [data_literal])))
      (PState ((h ++ [data_literal]) ++ [column_names]) (console st1) (est st1))
      = (Ok (g_df g), st2) ∧
    engine _ (Show (g_df g)) st2 = (Ok u, st3) ∧
    final (exec script w) = World st3 (os w).
Proof.
  exec_main; try done.
  intros [= <-]. cbn [g_spark g_data g_df]. eauto 10.
Qed.

Lemma bind_schema_literals :
  bind_schema data_literal column_names =
    Some (Table ["id"; "name"]
            [[PyInt 1; PyStr "Alice"]; [PyInt 2; PyStr "Bob"]]).
Proof. reflexivity. Qed.

(** The dataframe a returning run binds to [df]. *)
Lemma main_dataframe w g :
  create_faithful columns collect engine →
  res (exec script w) = Ok g →
  columns (g_df g) = ["id"; "name"] ∧
  collect (g_df g) = [[PyInt 1; PyStr "Alice"]; [PyInt 2; PyStr "Bob"]].
Proof.
  intros Hcreate Hres.
  destruct (main_returns w g Hres) as (st1 & st2 & st3 & u & _ & _ & Hc & _).
  destruct (heap_two_allocs (heap st1) data_literal column_names) as [Hd Hn].
  apply (Hcreate _ _ _ _ _ _ _ _ _ Hc Hd Hn bind_schema_literals).
Qed.

(** C1. Running the script displays one table: the columns "id" and
    "name", in that order, over the rows (1, "Alice") and (2, "Bob"), in
    that order and no others.  The framework is any engine whose
    [createDataFrame] and [show] are faithful and whose other calls print
    no table; the run is one that returns. *)
Theorem main_displays_table w g :
  create_faithful columns collect engine →
  show_faithful columns collect engine →
  quiet engine →
  res (exec script w) = Ok g →
  console (proc (final (exec script w))) =
    console (proc w) ++
    [Table ["id"; "name"] [[PyInt 1; PyStr "Alice"]; [PyInt 2; PyStr "Bob"]]].
Proof.
  intros Hcreate Hshow Hquiet Hres.
  destruct (main_dataframe w g Hcreate Hres) as [Hcols Hrows].
  destruct (main_returns w g Hres) as (st1 & st2 & st3 & u & Hg & _ & Hc & Hs & ->).
  cbn [proc]. rewrite (Hshow _ _ _ _ Hs), Hcols, Hrows.
  pose proof (Hquiet _ (CreateDataFrame (g_spark g) (length (heap st1))
    (length (heap st1 ++ [data_literal])))
    (PState ((heap st1 ++ [data_literal]) ++ [column_names])
       (console st1) (est st1))) as Hq2.
  rewrite Hc in Hq2. cbn [snd console] in Hq2. rewrite Hq2 by done.
  pose proof (Hquiet _ (GetOrCreate builder) (proc w)) as Hq1.
  rewrite Hg in Hq1. cbn [snd] in Hq1. rewrite Hq1 by done.
  reflexivity.
Qed.


(** Closes the cases of a run of the script on its explicit log. *)
Ltac close_cases :=
  cbn;
  rewrite ?(proj1 (heap_two_allocs _ _ _)), ?(proj2 (heap_two_allocs _ _ _));
  first [ done
        | split; [ first [ by eexists | apply prefix_nil ] | done ] ].

Lemma main_loaded w :
  omap ev_loaded (trace (exec script w))
    `prefix_of` [(Some data_literal, Some column_names)] ∧
  (is_ok (res (exec script w)) = true →
   omap ev_loaded (trace (exec script w)) =
     [(Some data_literal, Some column_names)]).
Proof. exec_main; close_cases. Qed.

Lemma main_allocated w :
  omap ev_allocated (trace (exec script w))
    `prefix_of` [data_literal; column_names] ∧
  (is_ok (res (exec script w)) = true →
   omap ev_allocated (trace (exec script w)) = [data_literal; column_names]).
Proof. exec_main; close_cases. Qed.

Lemma main_options w :
  omap ev_options (trace (exec script w)) `prefix_of` [builder] ∧
  (is_ok (res (exec script w)) = true →
   omap ev_options (trace (exec script w)) = [builder]).
Proof. exec_main; close_cases. Qed.

Lemma main_trace_hostless w :
  Forall (λ ev, hostless (ev_op ev) = true) (trace (exec script w)).
Proof. apply (run_only engine hostless), main_hostless. Qed.

Lemma filter_prefix {A} (P : A → Prop) `{!∀ x, Decision (P x)} (l1 l2 : list A) :
  l1 `prefix_of` l2 → filter P l1 `prefix_of` filter P l2.
Proof. intros [k ->]. rewrite filter_app. by eexists. Qed.

Lemma omap_loaded_view (t1 t2 : list (event session dataframe E)) :
  map ev_view t1 = map ev_view t2 → omap ev_loaded t1 = omap ev_loaded t2.
Proof.
  assert (∀ t : list (event session dataframe E),
            omap ev_loaded t = omap (λ v, v.1.2) (map ev_view t)) as Hview.
  { induction t as [|e t IH]; [done|]. cbn. by rewrite <- IH. }
  intros Ht. by rewrite !Hview, Ht.
Qed.

Lemma hostless_facility o :
  hostless o = true →
  facility_of o ∈ [Modules; Memory; Engine; Console].
Proof. destruct o; try discriminate; intros _; set_solver. Qed.

Lemma hostless_external o :
  hostless o = true → external (facility_of o) = true → o = OpShow.
Proof. destruct o; vm_compute; intros; congruence. Qed.

Lemma hostless_not o f :
  hostless o = true →
  f ∉ [Modules; Memory; Engine; Console] →
  facility_of o ≠ f.
Proof. intros Ho Hf <-. by apply Hf, hostless_facility. Qed.

(** C2. The data of the program is the literal list of line 5: two
    records, each an int and a str; every list a run allocates is that
    literal or the literal list of column names, the lists handed to
    [createDataFrame] are these two, and every call of a run works on
    the modules, the memory, the engine or the console: none reads the
    command line, the environment, a file, the network, the clock or the
    random generator. *)
Theorem main_data_is_literal w :
  length data_literal = 2%nat ∧
  Forall (λ v, ∃ i name, v = PyTuple [PyInt i; PyStr name]) data_literal ∧
  omap ev_allocated (trace (exec script w))
    `prefix_of` [data_literal; column_names] ∧
  omap ev_loaded (trace (exec script w))
    `prefix_of` [(Some data_literal, Some column_names)] ∧
  (is_ok (res (exec script w)) = true →
   omap ev_loaded (trace (exec script w)) =
     [(Some data_literal, Some column_names)]) ∧
  Forall (λ ev, facility_of (ev_op ev) ∈ [Modules; Memory; Engine; Console])
    (trace (exec script w)).
Proof.
  split; [done|]. split; [repeat constructor; by eexists _, _|].
  split; [apply main_allocated|].
  split; [apply main_loaded|]. split; [apply main_loaded|].
  eapply Forall_impl; [apply main_trace_hostless|].
  intros ev. apply hostless_facility.
Qed.

(** C3. The script is one straight line: import, session start, two list
    literals, dataframe construction, display.  Its calls into the
    framework are, in every run, a prefix of getOrCreate,
    createDataFrame, show, and exactly these three, once each and in this
    order, in a run that returns; which call comes next never depends on
    an answer. *)
Theorem main_three_calls_in_line w :
  straight_line script_ops script ∧
  filter (λ o, is_framework_op o = true) script_ops =
    [OpGetOrCreate; OpCreateDataFrame; OpShow] ∧
  framework_ops (trace (exec script w))
    `prefix_of` [OpGetOrCreate; OpCreateDataFrame; OpShow] ∧
  (is_ok (res (exec script w)) = true →
   framework_ops (trace (exec script w)) =
     [OpGetOrCreate; OpCreateDataFrame; OpShow]).
Proof.
  destruct (run_straight_line engine script_ops script w main_straight_line)
    as [Hp Hf].
  split; [apply main_straight_line|]. split; [done|]. split.
  - apply (filter_prefix (λ o, is_framework_op o = true)) in Hp. exact Hp.
  - intros Hok. unfold framework_ops. by rewrite (Hf Hok).
Qed.

(** C4. An exception raised by a call of the script (the session start
    that cannot reach the engine, say) is the result of the run as it
    was raised; the raising call is the last call the run makes, the run
    ends in the world that call left, and the exception is the one the
    call really raised. *)
Theorem main_propagates_failure w i ev e :
  trace (exec script w) !! i = Some ev →
  ev_raised ev = Some e →
  res (exec script w) = Raise e ∧
  last (trace (exec script w)) = Some ev ∧
  final (exec script w) = ev_after engine ev ∧
  ev_sound engine ev.
Proof.
  intros Hi He.
  destruct (run_raise_last engine script w i ev e Hi He) as [Hres Hlen].
  assert (last (trace (exec script w)) = Some ev) as Hlast.
  { rewrite last_lookup, <- Hlen. exact Hi. }
  split; [done|]. split; [done|]. split.
  - by rewrite run_final, Hlast.
  - pose proof (run_sound engine script w) as Hs.
    rewrite Forall_lookup in Hs. by apply (Hs i).
Qed.

(** C5. Two runs that differ in the command line, the environment, the
    files and the messages on the network (and in the clock, the random
    seed, the threads and locks as well) have the same result, end in the same process state, so with
    the same console, and log the same calls on the same lists; and the
    one call of a run on an external facility is show, on the console. *)
Theorem main_ignores_host_inputs (st : pstate E) h1 h2 :
  installed h1 = installed h2 →
  res (exec script (World st h1)) = res (exec script (World st h2)) ∧
  proc (final (exec script (World st h1))) =
    proc (final (exec script (World st h2))) ∧
  console (proc (final (exec script (World st h1)))) =
    console (proc (final (exec script (World st h2)))) ∧
  map ev_view (trace (exec script (World st h1))) =
    map ev_view (trace (exec script (World st h2))) ∧
  omap ev_loaded (trace (exec script (World st h1))) =
    omap ev_loaded (trace (exec script (World st h2))) ∧
  Forall (λ ev, external (facility_of (ev_op ev)) = true → ev_op ev = OpShow)
    (trace (exec script (World st h1))).
Proof.
  intros Hi.
  destruct (run_host_independent engine script st h1 h2 main_hostless Hi)
    as (Hr & Hp & Ht).
  split; [done|]. split; [done|]. split; [by rewrite Hp|]. split; [done|].
  split; [by apply omap_loaded_view|].
  eapply Forall_impl; [apply main_trace_hostless|].
  intros ev. apply hostless_external.
Qed.

(** C6. A run leaves the host as it found it, its files in particular,
    and none of its calls works on the file system: what the script
    creates is in the process state and on the console. *)
Theorem main_leaves_no_files w :
  os (final (exec script w)) = os w ∧
  files (os (final (exec script w))) = files (os w) ∧
  Forall (λ ev, facility_of (ev_op ev) ≠ FileSystem) (trace (exec script w)).
Proof.
  pose proof (run_hostless_os engine script w main_hostless) as Ho.
  split; [done|]. split; [by rewrite Ho|].
  eapply Forall_impl; [apply main_trace_hostless|].
  intros ev Hev. apply hostless_not; [done|].
    intros Hin. set_unfold. destruct_or!; congruence.
Qed.

(** C7. A run starts no thread and creates no lock, none of its calls is
    a concurrency call, each call starts in the world the previous one
    left, and the session is asked for with no option set, so the script
    configures nothing of the engine's parallelism. *)
Theorem main_single_threaded w :
  threads (os (final (exec script w))) = threads (os w) ∧
  locks (os (final (exec script w))) = locks (os w) ∧
  Forall (λ ev, facility_of (ev_op ev) ≠ Concurrency) (trace (exec script w)) ∧
  chained engine w (trace (exec script w)) ∧
  omap ev_options (trace (exec script w)) `prefix_of` [[]].
Proof.
  pose proof (run_hostless_os engine script w main_hostless) as Ho.
  split; [by rewrite Ho|]. split; [by rewrite Ho|]. split.
  - eapply Forall_impl; [apply main_trace_hostless|].
    intros ev Hev. apply hostless_not; [done|].
    intros Hin. set_unfold. destruct_or!; congruence.
  - split; [apply run_chained | apply main_options].
Qed.

(** C8. Two runs that return, from any two worlds, bind [df] to
    dataframes with the same column names and the same rows in the same
    order, hand the same two lists to [createDataFrame], and neither
    reads the command line, the environment, a file, the network, the
    clock or the random generator. *)
Theorem main_deterministic w1 w2 g1 g2 :
  create_faithful columns collect engine →
  res (exec script w1) = Ok g1 →
  res (exec script w2) = Ok g2 →
  columns (g_df g1) = columns (g_df g2) ∧
  collect (g_df g1) = collect (g_df g2) ∧
  omap ev_loaded (trace (exec script w1)) =
    omap ev_loaded (trace (exec script w2)) ∧
  Forall (λ ev, facility_of (ev_op ev) ∉
                  [CommandLine; Environment; FileSystem; Network;
                   Clock; Entropy])
    (trace (exec script w1) ++ trace (exec script w2)).
Proof.
  intros Hcreate H1 H2.
  destruct (main_dataframe w1 g1 Hcreate H1) as [-> ->].
  destruct (main_dataframe w2 g2 Hcreate H2) as [-> ->].
  split; [done|]. split; [done|]. split.
  - rewrite (proj2 (main_loaded w1)), (proj2 (main_loaded w2)); [done| |].
    + by rewrite H2.
    + by rewrite H1.
  - apply Forall_app. split.
    all: eapply Forall_impl; [apply main_trace_hostless|].
    all: intros ev Hev Hin; apply hostless_facility in Hev.
    all: set_unfold; destruct_or!; congruence.
Qed.

(** C9. Every row of the literal data is a tuple of as many fields as
    there are column names, two: zipping the names with a row loses
    neither a name nor a field, the binding of the data to the names is
    defined, and so it is at every [createDataFrame] call of every run. *)
Theorem main_schema_well_formed w :
  length column_names = 2%nat ∧
  Forall (λ v, ∃ fs, as_row v = Some fs ∧ length fs = length column_names ∧
                     (zip ["id"; "name"] fs).*1 = ["id"; "name"] ∧
                     (zip ["id"; "name"] fs).*2 = fs)
    data_literal ∧
  bind_schema data_literal column_names =
    Some (Table ["id"; "name"]
            [[PyInt 1; PyStr "Alice"]; [PyInt 2; PyStr "Bob"]]) ∧
  Forall (λ ev, ∀ l, ev_loaded ev = Some l →
                ∃ items names t, l = (Some items, Some names) ∧
                                 bind_schema items names = Some t)
    (trace (exec script w)).
Proof.
  split; [done|]. split; [repeat constructor; by eexists|].
  split; [done|].
  exec_main; repeat constructor; cbn; try done.
  all: rewrite ?(proj1 (heap_two_allocs _ _ _)), ?(proj2 (heap_two_allocs _ _ _)).
  all: intros l [= <-]; by eexists _, _, _.
Qed.

(** *** The import, the order of the statements and the flow of values *)

Abbreviation import_call :=
  (Runtime (ImportFrom "pyspark.sql" "SparkSession")
     : call session dataframe unit).



Lemma step_import_found m n (w : world E) :
  importable (os w) m n →
  step engine (Runtime (ImportFrom m n)) w = (Ok (), w).
Proof.
  intros (names & Hm & Hn). cbn [step runtime_step]. rewrite Hm.
  by case_decide.
Qed.

Lemma step_import_ok_inv m n (w : world E) u w' :
  step engine (Runtime (ImportFrom m n)) w = (Ok u, w') →
  importable (os w) m n.
Proof.
  cbn [step runtime_step]. destruct (installed (os w) !! m) as [names|] eqn:Hm.
  - case_decide; [|done]. intros _. by exists names.
  - done.
Qed.

Lemma main_import_raises w e :
  step engine import_call w = (Raise e, w) →
  exec script w = Outcome (Raise e) w [Event import_call w (Raise e)].
Proof.
  intros Hs.
  unfold main, import_from, getOrCreate, new_list, createDataFrame, show,
    perform.
  cbn [bind]. by rewrite (run_do_raise engine _ _ w _ _ Hs).
Qed.

Lemma main_ok_importable w :
  is_ok (res (exec script w)) = true →
  importable (os w) "pyspark.sql" "SparkSession".
Proof.
  destruct (step engine import_call w) as [[u|e] w'] eqn:Hs.
  - intros _. by apply step_import_ok_inv in Hs.
  - pose proof (step_import _ _ _ _ _ _ Hs) as ->.
    by rewrite (main_import_raises w e Hs).
Qed.






(** X3. The values flow as the names say: in every run
    [createDataFrame] is called on exactly the sessions [getOrCreate]
    answered, and [show] on exactly the dataframes [createDataFrame]
    answered; so a session that was obtained is always used and a
    dataframe that was built is always shown. *)
Theorem main_threads_handles w :
  omap ev_session_used (trace (exec script w)) =
    omap ev_session_made (trace (exec script w)) ∧
  omap ev_df_shown (trace (exec script w)) =
    omap ev_df_made (trace (exec script w)).
Proof. exec_main; by cbn. Qed.



(** X6. The script returns exactly when the import finds
    [SparkSession] and the three calls answer, each on the state the
    previous one left with the two lists appended to the heap in between;
    it then binds [spark] and [df] to the answers and [data] to the first
    new location. *)
Theorem main_returns_iff w g :
  res (exec script w) = Ok g ↔
  importable (os w) "pyspark.sql" "SparkSession" ∧
  ∃ st1 st2 st3 u,
    engine _ (GetOrCreate builder) (proc w) = (Ok (g_spark g), st1) ∧
    g_data g = length (heap st1) ∧
    engine _ (CreateDataFrame (g_spark g) (length (heap st1))
                (S (length (heap st1))))
      (PState (heap st1 ++ [data_literal; column_names])
         (console st1) (est st1))
      = (Ok (g_df g), st2) ∧
    engine _ (Show (g_df g)) st2 = (Ok u, st3).
Proof.
  assert (∀ h : list pylist,
            length (h ++ [data_literal]) = S (length h) ∧
            (h ++ [data_literal]) ++ [column_names] =
              h ++ [data_literal; column_names]) as Hnorm.
  { intros h. split; [rewrite length_app; cbn [length]; lia|].
    by rewrite <- app_assoc. }
  split.
  - intros Hres. split.
    { apply main_ok_importable. by rewrite Hres. }
    destruct (main_returns w g Hres) as (st1 & st2 & st3 & u & Hg & Hd & Hc & Hs & _).
    cbn zeta in *. destruct (Hnorm (heap st1)) as [Hlen Happ].
    rewrite Hlen, Happ in Hc. by exists st1, st2, st3, u.
  - intros (Hi & st1 & st2 & st3 & u & Hg & Hd & Hc & Hs).
    destruct (Hnorm (heap st1)) as [Hlen Happ].
    rewrite <- Hlen, <- Happ in Hc.
    unfold main, import_from, getOrCreate, new_list, createDataFrame, show,
      perform.
    cbn [bind].
    rewrite (run_do_ok engine _ _ w _ _ (step_import_found _ _ w Hi)).
    cbn [res bind].
    rewrite (run_do_ok engine _ _ w _ _ (step_framework engine _ w _ _ Hg)).
    cbn [res bind].
    rewrite (run_do_ok engine _ _ _ _ _ (step_new_list engine _ _)).
    cbn [res bind].
    rewrite (run_do_ok engine _ _ _ _ _ (step_new_list engine _ _)).
    cbn [res bind proc os heap console est with_heap].
    rewrite (run_do_ok engine _ _ _ _ _
               (step_framework engine _ (World _ (os w)) _ _ Hc)).
    cbn [res bind].
    rewrite (run_do_ok engine _ _ _ _ _
               (step_framework engine _ (World st2 (os w)) _ _ Hs)).
    cbn [res bind]. rewrite run_ret. cbn [res].
    rewrite <- Hd. by destruct g.
Qed.

(** X7. A run ends at the import, at one of the three framework calls or
    at the end of the script, never in between: the list literals cannot
    fail, so the only calls that raise are the import, [getOrCreate],
    [createDataFrame] and [show]. *)
Theorem main_ends_at_a_call w :
  ops (trace (exec script w)) ∈
    [ [OpImport];
      [OpImport; OpGetOrCreate];
      [OpImport; OpGetOrCreate; OpNewList; OpNewList; OpCreateDataFrame];
      script_ops ] ∧
  Forall (λ ev, ev_raised ev ≠ None →
                ev_op ev ∈ [OpImport; OpGetOrCreate; OpCreateDataFrame; OpShow])
    (trace (exec script w)).
Proof.
  exec_main; split.
  all: try (cbn [ops map ev_op op_of fop hop]; unfold script_ops;
            by repeat first [ apply list_elem_of_here
                            | apply list_elem_of_further ]).
  all: repeat (apply Forall_cons; split;
                 [ cbn; intros Hr; try done;
                   by repeat first [ apply list_elem_of_here
                                   | apply list_elem_of_further ]
                 | ]).
  all: by apply Forall_nil.
Qed.

End Main.

(** ** The local engine keeps the contract *)

Section LocalEngineFacts.
Import LocalEngine.

Lemma local_create_faithful down : create_faithful columns collect (engine down).
Proof.
  intros spark d n st df st' items names t He Hd Hn Hb.
  cbn in He. rewrite Hd, Hn in He. unfold build in He. rewrite Hb in He.
  by injection He as <- _.
Qed.

Lemma local_show_faithful down : show_faithful columns collect (engine down).
Proof. intros df st u st' He. cbn in He. by injection He as _ <-. Qed.

Lemma local_quiet down : quiet (engine down).
Proof.
  intros R c st Hc. destruct c; cbn.
  - by destruct down.
  - by repeat case_match.
  - done.
Qed.


End LocalEngineFacts.

(** ** The script on the local engine *)

Section Runs.
Import LocalEngine.

Abbreviation up := (engine false).
Abbreviation down := (engine true).
Abbreviation the_table :=
  (Table ["id"; "name"] [[PyInt 1; PyStr "Alice"]; [PyInt 2; PyStr "Bob"]]).

Lemma main_displays_table_witness :
  create_faithful columns collect up ∧
  show_faithful columns collect up ∧
  quiet up ∧
  res (run up main (later busy_host)) = Ok (Globals 3%nat 1%nat the_table) ∧
  console (proc (final (run up main (later busy_host)))) =
    [Table ["n"] [[PyInt 7]]] ++ [the_table].
Proof.
  split; [apply local_create_faithful|].
  split; [apply local_show_faithful|].
  split; [apply local_quiet|].
  split; [vm_compute; reflexivity|].
  apply (main_displays_table columns collect up (later busy_host)
           (Globals 3%nat 1%nat the_table)).
  - apply local_create_faithful.
  - apply local_show_faithful.
  - apply local_quiet.
  - vm_compute; reflexivity.
Defined.

Lemma main_data_is_literal_witness :
  is_ok (res (run up main (start fresh_host))) = true ∧
  omap ev_loaded (trace (run up main (start fresh_host))) =
    [(Some data_literal, Some column_names)].
Proof.
  split; [vm_compute; reflexivity|].
  apply (main_data_is_literal up (start fresh_host)).
  vm_compute; reflexivity.
Defined.

Lemma main_three_calls_in_line_witness :
  is_ok (res (run up main (start fresh_host))) = true ∧
  framework_ops (trace (run up main (start fresh_host))) =
    [OpGetOrCreate; OpCreateDataFrame; OpShow].
Proof.
  split; [vm_compute; reflexivity|].
  apply (main_three_calls_in_line up (start fresh_host)).
  vm_compute; reflexivity.
Defined.

Lemma main_propagates_failure_witness :
  trace (run down main (start fresh_host)) !! 1%nat =
    Some (Event (Framework (GetOrCreate builder)) (start fresh_host)
            (Raise gateway_exited)) ∧
  res (run down main (start fresh_host)) = Raise gateway_exited ∧
  final (run down main (start fresh_host)) = start fresh_host.
Proof.
  split; [vm_compute; reflexivity|].
  destruct (main_propagates_failure down (start fresh_host) 1%nat
              (Event (Framework (GetOrCreate builder)) (start fresh_host)
                 (Raise gateway_exited))
              gateway_exited) as (Hres & _ & Hfinal & _).
  - vm_compute; reflexivity.
  - reflexivity.
  - split; [exact Hres|]. rewrite Hfinal. reflexivity.
Defined.

Lemma main_ignores_host_inputs_witness :
  installed fresh_host = installed busy_host ∧
  argv fresh_host ≠ argv busy_host ∧
  res (run up main (start fresh_host)) = res (run up main (start busy_host)) ∧
  console (proc (final (run up main (start fresh_host)))) =
    console (proc (final (run up main (start busy_host)))).
Proof.
  split; [reflexivity|]. split; [discriminate|].
  destruct (main_ignores_host_inputs up (PState [] [] 0%nat)
              fresh_host busy_host) as (Hres & _ & Hcon & _).
  - reflexivity.
  - split; [exact Hres | exact Hcon].
Defined.

Lemma main_leaves_no_files_witness :
  files (os (final (run up main (start busy_host)))) =
    {[ "data.csv" := "3,Carol" ]}.
Proof. apply (main_leaves_no_files up (start busy_host)). Defined.

Lemma main_single_threaded_witness :
  threads (os (final (run up main (start busy_host)))) = 2%nat ∧
  locks (os (final (run up main (start busy_host)))) = 1%nat.
Proof.
  split; apply (main_single_threaded up (start busy_host)).
Defined.

Lemma main_deterministic_witness :
  create_faithful columns collect up ∧
  res (run up main (start fresh_host)) = Ok (Globals 0%nat 0%nat the_table) ∧
  res (run up main (later busy_host)) = Ok (Globals 3%nat 1%nat the_table) ∧
  columns the_table = columns the_table ∧
  omap ev_loaded (trace (run up main (start fresh_host))) =
    omap ev_loaded (trace (run up main (later busy_host))).
Proof.
  split; [apply local_create_faithful|].
  split; [vm_compute; reflexivity|]. split; [vm_compute; reflexivity|].
  destruct (main_deterministic columns collect up
              (start fresh_host) (later busy_host)
              (Globals 0%nat 0%nat the_table) (Globals 3%nat 1%nat the_table))
    as (Hcols & _ & Hloaded & _).
  - apply local_create_faithful.
  - vm_compute; reflexivity.
  - vm_compute; reflexivity.
  - split; [exact Hcols | exact Hloaded].
Defined.

Lemma main_schema_well_formed_witness :
  bind_schema data_literal column_names = Some the_table ∧
  build data_literal column_names = Ok the_table.
Proof.
  destruct (main_schema_well_formed up (start fresh_host)) as (_ & _ & Hb & _).
  split; [exact Hb|]. unfold build. rewrite Hb. reflexivity.
Defined.


(** The heap is shared with the engine: on one that writes the list it is
    given, [data] names another list after the run. *)
Lemma reversing_rewrites_data :
  is_ok (res (run reversing main (start fresh_host))) = true ∧
  heap (proc (final (run reversing main (start fresh_host)))) !! 0%nat =
    Some [PyTuple [PyInt 2; PyStr "Bob"]; PyTuple [PyInt 1; PyStr "Alice"]].
Proof. split; vm_compute; reflexivity. Qed.

(** Without the framework installed the import is the call that fails. *)
Lemma bare_host_fails_on_import :
  res (run up main (start bare_host)) =
    Raise (module_not_found "pyspark.sql") ∧
  ops (trace (run up main (start bare_host))) = [OpImport].
Proof. split; vm_compute; reflexivity. Qed.





Lemma main_returns_iff_witness :
  importable fresh_host "pyspark.sql" "SparkSession" ∧
  res (run up main (start fresh_host)) = Ok (Globals 0%nat 0%nat the_table).
Proof.
  assert (importable fresh_host "pyspark.sql" "SparkSession") as Hi.
  { exists {[ "SparkSession"; "DataFrame"; "Row" ]}. split; [reflexivity|].
    by set_unfold. }
  split; [exact Hi|].
  apply (main_returns_iff up (start fresh_host) (Globals 0%nat 0%nat the_table)).
  split; [exact Hi|].
  exists (PState [] [] 1%nat),
    (PState [data_literal; column_names] [] 1%nat),
    (PState [data_literal; column_names] [the_table] 1%nat), tt.
  repeat split; reflexivity.
Defined.

Lemma main_ends_at_a_call_witness :
  ops (trace (run up main (later busy_host))) = script_ops ∧
  ops (trace (run down main (later busy_host))) = [OpImport; OpGetOrCreate] ∧
  ops (trace (run up main (start fresh_host))) ∈
    [ [OpImport];
      [OpImport; OpGetOrCreate];
      [OpImport; OpGetOrCreate; OpNewList; OpNewList; OpCreateDataFrame];
      script_ops ].
Proof.
  split; [reflexivity|]. split; [reflexivity|].
  apply (main_ends_at_a_call up (start fresh_host)).
Defined.

End Runs.
